(** * lab_5_scraper/scraper.py: configuration validation and the crawler skeleton

    A shallow embedding of [src/lab_5_scraper/scraper.py].

    - Python objects read from the configuration file are values of [value]
      (what [json.load] can return).
    - Python exceptions are the constructors of [exn]; a computation that
      may raise is a value of [res].
    - The three constants imported from [core_utils.constants] are not part
      of the file; they are the variables of [Section Validation].
    - File access is explicit: a [world] maps a path to the file found
      there, and every function that opens a file returns the [trace] of
      its input and output next to its result. *)

From Stdlib Require Import ZArith String Ascii List Bool Lia SpecFloat
  Permutation.
Import ListNotations.
Local Open Scope string_scope.
Local Open Scope Z_scope.

Set Warnings "-register-all".

(** ** Python values *)

(** What [json.load] returns: [None], [bool], [int], [float], [str] (its
    characters as [ascii]), [list], and [dict] with string keys (items in
    insertion order, keys distinct). *)
Inductive value : Type :=
| VNone
| VBool (b : bool)
| VInt (n : Z)
| VFloat (f : spec_float)
| VStr (s : string)
| VList (items : list value)
| VDict (items : list (string * value)).

(** ** Exceptions *)

Inductive exn : Type :=
| ValueError
| TypeError
| KeyError
| FileNotFoundError
| JSONDecodeError
| IncorrectSeedURLError
| NumberOfArticlesOutOfRangeError
| IncorrectNumberOfArticlesError
| IncorrectHeadersError
| IncorrectEncodingError
| IncorrectTimeoutError
| IncorrectVerifyError.

(** The seven error kinds the module itself declares (lines 12-59). *)
Definition specific_kind (e : exn) : bool :=
  match e with
  | IncorrectSeedURLError | NumberOfArticlesOutOfRangeError
  | IncorrectNumberOfArticlesError | IncorrectHeadersError
  | IncorrectEncodingError | IncorrectTimeoutError
  | IncorrectVerifyError => true
  | _ => false
  end.

Inductive res (A : Type) : Type :=
| Ok (a : A)
| Raise (e : exn).
Arguments Ok {A} a.
Arguments Raise {A} e.

Definition bind {A B : Type} (m : res A) (k : A -> res B) : res B :=
  match m with
  | Ok a => k a
  | Raise e => Raise e
  end.

Declare Scope res_scope.
Delimit Scope res_scope with res.
Notation "x <- m ;; k" := (bind m (fun x => k))
  (at level 61, m at next level, right associativity) : res_scope.
Notation "m ;; k" := (bind m (fun _ => k))
  (at level 61, right associativity) : res_scope.
Local Open Scope res_scope.

(** ** Built-ins used by the validator *)

(** [isinstance(v, T)] for the five types the validator asks about.
    [bool] is a subclass of [int], so a boolean is an instance of [int]. *)
Definition isinstance_list (v : value) : bool :=
  match v with VList _ => true | _ => false end.
Definition isinstance_int (v : value) : bool :=
  match v with VInt _ | VBool _ => true | _ => false end.
Definition isinstance_dict (v : value) : bool :=
  match v with VDict _ => true | _ => false end.
Definition isinstance_str (v : value) : bool :=
  match v with VStr _ => true | _ => false end.
Definition isinstance_bool (v : value) : bool :=
  match v with VBool _ => true | _ => false end.

(** The integer an instance of [int] denotes in a comparison:
    [True] is 1 and [False] is 0.  Only called under [isinstance_int]. *)
Definition int_value (v : value) : Z :=
  match v with
  | VInt n => n
  | VBool true => 1
  | _ => 0
  end.

(** [d[key]] on a dict as its list of items. *)
Fixpoint lookup (key : string) (items : list (string * value)) : option value :=
  match items with
  | [] => None
  | (k, v) :: rest => if String.eqb k key then Some v else lookup key rest
  end.

(** [config_dict[key]]: [KeyError] when the key is missing; subscripting a
    list or a string with a string key, or a value that has no
    [__getitem__], is a [TypeError]. *)
Definition getitem (config_dict : value) (key : string) : res value :=
  match config_dict with
  | VDict items =>
      match lookup key items with
      | Some v => Ok v
      | None => Raise KeyError
      end
  | _ => Raise TypeError
  end.

(** ** The regular expression of line 106 *)

(** The fragment of [re] syntax the pattern uses: literal characters, [.]
    (any character but a newline, no DOTALL flag), concatenation and the
    greedy [?]. *)
Inductive regex : Type :=
| Lit (c : ascii)
| Dot
| Seq (r1 r2 : regex)
| Opt (r : regex).

(** Backtracking matcher: [rmatch r s k] is true when [r] matches a prefix
    of [s] whose remainder satisfies the continuation [k].  [Opt] tries
    the operand first (greedy) and the empty match second. *)
Fixpoint rmatch (r : regex) (s : string) (k : string -> bool) : bool :=
  match r with
  | Lit c =>
      match s with
      | String c' s' => if Ascii.eqb c c' then k s' else false
      | EmptyString => false
      end
  | Dot =>
      match s with
      | String c' s' => if Ascii.eqb c' "010"%char then false else k s'
      | EmptyString => false
      end
  | Seq r1 r2 => rmatch r1 s (fun s' => rmatch r2 s' k)
  | Opt r1 => rmatch r1 s k || k s
  end.

Fixpoint lits (s : string) (r : regex) : regex :=
  match s with
  | EmptyString => r
  | String c s' => Seq (Lit c) (lits s' r)
  end.

(** ["https?://(www.)?"] *)
Definition seed_pattern : regex :=
  lits "http" (Seq (Opt (Lit "s"%char))
    (lits ":/" (Seq (Lit "/"%char)
       (Opt (lits "www" Dot))))).

(** [re.match(pattern, url)] tested for truth: the pattern is anchored at
    the start of the string and may stop anywhere; a match object is
    truthy and [None] is not.  An argument that is not a string makes
    [re.match] raise [TypeError] ("expected string or bytes-like
    object"). *)
Definition re_match (pattern : regex) (url : value) : res bool :=
  match url with
  | VStr s => Ok (rmatch pattern s (fun _ => true))
  | _ => Raise TypeError
  end.

(** ** Config._validate_config_content (lines 97-121) *)

Section Validation.

(** [core_utils.constants], imported on lines 9-10. *)
Variable NUM_ARTICLES_UPPER_LIMIT : Z.
Variable TIMEOUT_LOWER_LIMIT : Z.
Variable TIMEOUT_UPPER_LIMIT : Z.

(** Lines 105-107: the loop over the seed URLs.  The first entry that
    [re.match] rejects ends the loop with [IncorrectSeedURLError]; an
    entry that is not a string ends it with the [TypeError] of
    [re.match]. *)
Fixpoint check_urls (urls : list value) : res unit :=
  match urls with
  | [] => Ok tt
  | url :: rest =>
      m <- re_match seed_pattern url ;;
      if negb m then Raise IncorrectSeedURLError else check_urls rest
  end.

(** Lines 103-107.  [config_dict] is not changed between the test of
    line 103 and the loop of line 105, so both subscripts give the same
    object; it is bound once. *)
Definition check_seed_urls (config_dict : value) : res unit :=
  seed_urls <- getitem config_dict "seed_urls" ;;
  match seed_urls with
  | VList urls => check_urls urls
  | _ => Raise ValueError
  end.

(** Lines 108-112. *)
Definition check_num_articles (config_dict : value) : res unit :=
  n <- getitem config_dict "total_articles_to_find_and_parse" ;;
  if negb (isinstance_int n && (int_value n >? 0)) then
    Raise IncorrectNumberOfArticlesError
  else if int_value n >? NUM_ARTICLES_UPPER_LIMIT then
    Raise NumberOfArticlesOutOfRangeError
  else Ok tt.

(** Lines 113-114. *)
Definition check_headers (config_dict : value) : res unit :=
  headers <- getitem config_dict "headers" ;;
  if negb (isinstance_dict headers) then Raise IncorrectHeadersError
  else Ok tt.

(** Lines 115-116. *)
Definition check_encoding (config_dict : value) : res unit :=
  encoding <- getitem config_dict "encoding" ;;
  if negb (isinstance_str encoding) then Raise IncorrectEncodingError
  else Ok tt.

(** Lines 117-119. *)
Definition check_timeout (config_dict : value) : res unit :=
  timeout <- getitem config_dict "timeout" ;;
  if negb (isinstance_int timeout &&
           ((TIMEOUT_LOWER_LIMIT <? int_value timeout) &&
            (int_value timeout <? TIMEOUT_UPPER_LIMIT))) then
    Raise IncorrectTimeoutError
  else Ok tt.

(** Lines 120-121. *)
Definition check_verify (config_dict : value) : res unit :=
  verify <- getitem config_dict "should_verify_certificate" ;;
  if negb (isinstance_bool verify) then Raise IncorrectVerifyError
  else Ok tt.

(** Lines 103-121: the statements of the function after the file is read,
    in source order. *)
Definition validate_statements (config_dict : value) : res unit :=
  check_seed_urls config_dict ;;
  check_num_articles config_dict ;;
  check_headers config_dict ;;
  check_encoding config_dict ;;
  check_timeout config_dict ;;
  check_verify config_dict.

End Validation.

(** ** Files and observable input/output *)

(** What [open] followed by [json.load] finds at a path: nothing, a file
    that is not JSON, or a JSON document. *)
Inductive file : Type :=
| NotJSON
| Document (config_dict : value).

Definition world : Type := string -> option file.

Inductive event : Type :=
| EvOpen (path : string)
| EvRequest (url : string).

Definition trace : Type := list event.


(** Lines 101-102. *)
Definition load_json (w : world) (path : string) : trace * res value :=
  ([EvOpen path],
   match w path with
   | None => Raise FileNotFoundError
   | Some NotJSON => Raise JSONDecodeError
   | Some (Document config_dict) => Ok config_dict
   end).

(** ** class Config (lines 61-177) *)

Record Config : Type := mkConfig { path_to_config : string }.

Section ConfigClass.

Variable NUM_ARTICLES_UPPER_LIMIT : Z.
Variable TIMEOUT_LOWER_LIMIT : Z.
Variable TIMEOUT_UPPER_LIMIT : Z.
Variable w : world.

(** Lines 97-121. *)
Definition _validate_config_content (self : Config) : trace * res unit :=
  let (tr, r) := load_json w (path_to_config self) in
  (tr, config_dict <- r ;;
       validate_statements NUM_ARTICLES_UPPER_LIMIT TIMEOUT_LOWER_LIMIT
         TIMEOUT_UPPER_LIMIT config_dict).

(** [Config(path_to_config)], lines 67-76: the attribute is stored, the
    content is validated, and the instance reaches the caller only when
    [__init__] returns.  The call of line 76 is commented out. *)
Definition Config_init (path : string) : trace * res Config :=
  let self := mkConfig path in
  let (tr, r) := _validate_config_content self in
  (tr, r ;; Ok self).

End ConfigClass.

(** Lines 123-177: the body of each accessor is its docstring, so each
    call returns [None]. *)
Definition get_seed_urls (self : Config) : value := VNone.
Definition get_num_articles (self : Config) : value := VNone.
Definition get_headers (self : Config) : value := VNone.
Definition get_encoding (self : Config) : value := VNone.
Definition get_timeout (self : Config) : value := VNone.
Definition get_verify_certificate (self : Config) : value := VNone.
Definition get_headless_mode (self : Config) : value := VNone.

(** ** Config._extract_config_content (lines 78-95) *)

(** The seven subscripts of lines 88-94, in the order Python evaluates
    them. *)
Definition dto_keys : list string :=
  ["seed_urls"; "total_articles_to_find_and_parse"; "headers"; "encoding";
   "timeout"; "should_verify_certificate"; "headless_mode"].

Section ExtractConfig.

(** [core_utils.config_dto.ConfigDTO], imported on line 8, is not part of
    the file: the class is a type and its constructor a function of the
    seven arguments, which may raise. *)
Variable DTO : Type.
Variable ConfigDTO :
  value -> value -> value -> value -> value -> value -> value -> res DTO.
Variable w : world.

(** Lines 85-95: the file is read again, the seven arguments are evaluated
    from left to right, then the constructor is called. *)
Definition _extract_config_content (self : Config) : trace * res DTO :=
  let (tr, r) := load_json w (path_to_config self) in
  (tr, config_dict <- r ;;
       seed_urls <- getitem config_dict "seed_urls" ;;
       total <- getitem config_dict "total_articles_to_find_and_parse" ;;
       headers <- getitem config_dict "headers" ;;
       encoding <- getitem config_dict "encoding" ;;
       timeout <- getitem config_dict "timeout" ;;
       verify <- getitem config_dict "should_verify_certificate" ;;
       headless <- getitem config_dict "headless_mode" ;;
       ConfigDTO seed_urls total headers encoding timeout verify headless).

End ExtractConfig.

(** ** The exception classes (lines 12-59) *)

(** [str(e)] for an exception as this module raises it: the seven classes
    are raised without argument, so [msg] is the default of their
    [__init__]; [ValueError] is raised on line 104 with its message.  The
    exceptions raised by the interpreter and the libraries are not built
    here. *)
Definition message (e : exn) : option string :=
  match e with
  | IncorrectSeedURLError =>
      Some "Incorrect seed URL format in the config"
  | NumberOfArticlesOutOfRangeError =>
      Some "Number of articles in the config is out of range"
  | IncorrectNumberOfArticlesError =>
      Some "Number of articles in the config is not an int or less than 0"
  | IncorrectHeadersError =>
      Some "Headers need to be specified as a dictionary in the config"
  | IncorrectEncodingError =>
      Some "Encoding should be a string in the config"
  | IncorrectTimeoutError =>
      Some "Timeout is incorrect or out of range in the config"
  | IncorrectVerifyError =>
      Some "Verify Certificate value should be True of False in the config"
  | ValueError => Some "Seed URLs should be a list of strings"
  | TypeError | KeyError | FileNotFoundError | JSONDecodeError => None
  end.

(** ** make_request, class Crawler, class HTMLParser (lines 180-286) *)

(** The instance attributes ([__dict__]) of an object of a class whose
    methods are modelled below. *)
Definition instance : Type := list (string * value).

Definition getattr (self : instance) (name : string) : option value :=
  lookup name self.

(** Lines 180-190: docstring only; no request is sent. *)
Definition make_request (url : string) (config : Config) : trace * value :=
  ([], VNone).

(** Lines 201-207: docstring only; [__init__] assigns no attribute. *)
Definition Crawler_init (config : Config) : instance := [].

(** Lines 209-218: docstring only. *)
Definition _extract_url (Soup : Type) (self : instance) (article_bs : Soup)
  : value := VNone.

(** Lines 220-223: docstring only; [self] is left as it was. *)
Definition find_articles (self : instance) : trace * instance * value :=
  ([], self, VNone).

(** Lines 225-231: docstring only. *)
Definition get_search_urls (self : instance) : value := VNone.

(** Lines 243-251: docstring only. *)
Definition HTMLParser_init (full_url : string) (article_id : Z)
  (config : Config) : instance := [].

(** Lines 269-278: docstring only. *)
Definition unify_date_format (self : instance) (date_str : value) : value :=
  VNone.

(** Lines 280-286: docstring only. *)
Definition parse (self : instance) : trace * instance * value :=
  ([], self, VNone).

(** ** The rules of the configuration, as the specification words them

    These definitions follow section 4.1 of the specification, not the
    code; the theorems below compare the two. *)

(** [s] begins with [p]. *)
Fixpoint starts_with (p s : string) : bool :=
  match p, s with
  | EmptyString, _ => true
  | String a p', String b s' => Ascii.eqb a b && starts_with p' s'
  | String _ _, EmptyString => false
  end.

(** An absolute HTTP(S) URL: [http://] or [https://], then anything. *)
Definition http_url (s : string) : bool :=
  starts_with "http://" s || starts_with "https://" s.

Definition matching_string (v : value) : bool :=
  match v with VStr s => http_url s | _ => false end.

(** The integer a value is, if it is one.  Python counts the booleans
    among the integers, as 0 and 1. *)
Definition integer_value (v : value) : option Z :=
  match v with
  | VInt n => Some n
  | VBool b => Some (Z.b2z b)
  | _ => None
  end.

Definition field (config_dict : value) (key : string) : option value :=
  match config_dict with
  | VDict items => lookup key items
  | _ => None
  end.

(** The six rules, in the order of section 4.1. *)
Inductive rule : Type :=
| RSeedUrls | RNumArticles | RHeaders | REncoding | RTimeout | RVerify.

Definition rules : list rule :=
  [RSeedUrls; RNumArticles; RHeaders; REncoding; RTimeout; RVerify].

Definition key_of (r : rule) : string :=
  match r with
  | RSeedUrls => "seed_urls"
  | RNumArticles => "total_articles_to_find_and_parse"
  | RHeaders => "headers"
  | REncoding => "encoding"
  | RTimeout => "timeout"
  | RVerify => "should_verify_certificate"
  end.

Section Rules.

Variable upper_limit : Z.
Variable timeout_lower : Z.
Variable timeout_upper : Z.

(** What each rule asks of the value of its field. *)
Definition rule_accepts (r : rule) (v : value) : bool :=
  match r with
  | RSeedUrls =>
      match v with
      | VList urls => forallb matching_string urls
      | _ => false
      end
  | RNumArticles =>
      match integer_value v with
      | Some n => (0 <? n) && (n <=? upper_limit)
      | None => false
      end
  | RHeaders => match v with VDict _ => true | _ => false end
  | REncoding => match v with VStr _ => true | _ => false end
  | RTimeout =>
      match integer_value v with
      | Some n => (timeout_lower <? n) && (n <? timeout_upper)
      | None => false
      end
  | RVerify => match v with VBool _ => true | _ => false end
  end.

(** The error kind section 4.1 attaches to a value its rule rejects.  A
    count that is a positive integer can only be rejected for exceeding
    the limit. *)
Definition rule_error (r : rule) (v : value) : exn :=
  match r with
  | RSeedUrls =>
      match v with
      | VList _ => IncorrectSeedURLError
      | _ => ValueError
      end
  | RNumArticles =>
      match integer_value v with
      | Some n =>
          if 0 <? n then NumberOfArticlesOutOfRangeError
          else IncorrectNumberOfArticlesError
      | None => IncorrectNumberOfArticlesError
      end
  | RHeaders => IncorrectHeadersError
  | REncoding => IncorrectEncodingError
  | RTimeout => IncorrectTimeoutError
  | RVerify => IncorrectVerifyError
  end.

Definition holds (r : rule) (config_dict : value) : bool :=
  match field config_dict (key_of r) with
  | Some v => rule_accepts r v
  | None => false
  end.

(** [Some e] when the document breaks rule [r], [e] being the error kind
    of the rule.  A missing field is the fatal load error of section 6,
    which Python reports as [KeyError]. *)
Definition violation (r : rule) (config_dict : value) : option exn :=
  match field config_dict (key_of r) with
  | Some v => if rule_accepts r v then None else Some (rule_error r v)
  | None => Some KeyError
  end.

(** The error of the first rule of [rs] the document breaks. *)
Fixpoint first_violation (rs : list rule) (config_dict : value) : option exn :=
  match rs with
  | [] => None
  | r :: rs' =>
      match violation r config_dict with
      | Some e => Some e
      | None => first_violation rs' config_dict
      end
  end.

(** The statement of the validator that enforces a rule. *)
Definition check (r : rule) : value -> res unit :=
  match r with
  | RSeedUrls => check_seed_urls
  | RNumArticles => check_num_articles upper_limit
  | RHeaders => check_headers
  | REncoding => check_encoding
  | RTimeout => check_timeout timeout_lower timeout_upper
  | RVerify => check_verify
  end.

(** Every rule of section 4.1 holds. *)
Definition six_rules_hold (config_dict : value) : bool :=
  forallb (fun r => holds r config_dict) rules.

End Rules.

(** What sections 3 and 6 of the specification ask of a configuration
    beyond the six rules: a seed list that is not empty, headers that map
    strings to strings, and a [headless_mode] field that is a boolean. *)
Definition nonempty_seed_list (config_dict : value) : bool :=
  match field config_dict "seed_urls" with
  | Some (VList (_ :: _)) => true
  | _ => false
  end.

Definition headers_are_strings (config_dict : value) : bool :=
  match field config_dict "headers" with
  | Some (VDict items) => forallb (fun kv => isinstance_str (snd kv)) items
  | _ => false
  end.

Definition headless_mode_is_boolean (config_dict : value) : bool :=
  match field config_dict "headless_mode" with
  | Some (VBool _) => true
  | _ => false
  end.

(** A fully valid configuration, in the words of sections 3, 4.1 and 6:
    the six rules hold, and so do the three constraints above. *)
Definition fully_valid (upper_limit timeout_lower timeout_upper : Z)
  (config_dict : value) : bool :=
  six_rules_hold upper_limit timeout_lower timeout_upper config_dict
  && nonempty_seed_list config_dict
  && headers_are_strings config_dict
  && headless_mode_is_boolean config_dict.

(** The document holds every field the rules read. *)
Definition has_fields (config_dict : value) : Prop :=
  forall r, exists v, field config_dict (key_of r) = Some v.

(** Every entry of the seed list is a string. *)
Definition seed_entries_are_strings (config_dict : value) : Prop :=
  forall urls, field config_dict "seed_urls" = Some (VList urls) ->
    Forall (fun url => isinstance_str url = true) urls.

(** ** The configuration of the concrete scenarios (specification, section 8) *)

Definition scenario_config (seed_urls total timeout : value) : value :=
  VDict [("seed_urls", seed_urls);
         ("total_articles_to_find_and_parse", total);
         ("headers", VDict []);
         ("encoding", VStr "utf-8");
         ("timeout", timeout);
         ("should_verify_certificate", VBool true);
         ("headless_mode", VBool false)].

Definition scenario_seeds : value := VList [VStr "https://example.com/news"].

Definition scenario : value := scenario_config scenario_seeds (VInt 2) (VInt 5).

Definition scenario_world (config_dict : value) : world :=
  fun path =>
    if String.eqb path "scrapper_config.json" then Some (Document config_dict)
    else None.

(** * Properties *)

(** ** The pattern accepts exactly the strings that begin with
       [http://] or [https://] *)

Lemma starts_with_app (p s : string) :
  starts_with p s = true <-> exists rest, s = (p ++ rest)%string.
Proof.
  revert s. induction p as [|a p IH]; intros s; simpl.
  - split; [intros _; now exists s | reflexivity].
  - destruct s as [|b s].
    + split; [discriminate | intros [rest H]; discriminate].
    + rewrite andb_true_iff, IH. split.
      * intros [Hab [rest ->]]. apply Ascii.eqb_eq in Hab. subst b.
        now exists rest.
      * intros [rest H]. injection H as -> ->. split.
        -- apply Ascii.eqb_refl.
        -- now exists rest.
Qed.

Ltac split_string :=
  cbn [rmatch lits starts_with andb orb];
  match goal with
  | |- context [match ?s with EmptyString => _ | String _ _ => _ end] =>
      is_var s; destruct s
  | |- context [Ascii.eqb ?a ?b] =>
      first
        [ is_var b; destruct (Ascii.eqb_spec a b); subst
        | is_var a; destruct (Ascii.eqb_spec a b); subst
        | let v := eval vm_compute in (Ascii.eqb a b) in
          change (Ascii.eqb a b) with v ]
  end.

Lemma rmatch_seed_pattern (s : string) :
  rmatch seed_pattern s (fun _ => true) = http_url s.
Proof.
  unfold seed_pattern, http_url.
  repeat split_string; cbn [andb orb];
    rewrite ?orb_true_r, ?orb_false_r; reflexivity.
Qed.

Example re_match_accepts :
  map (re_match seed_pattern)
    [VStr "http://a"; VStr "https://www.example.com/news"; VStr "https://"]
  = [Ok true; Ok true; Ok true].
Proof. reflexivity. Qed.

Example re_match_rejects :
  map (re_match seed_pattern)
    [VStr "ftp://a"; VStr "http:/a"; VStr "httpss://a"; VStr " http://a";
     VStr ""; VInt 5; VNone]
  = [Ok false; Ok false; Ok false; Ok false; Ok false;
     Raise TypeError; Raise TypeError].
Proof. reflexivity. Qed.

(** ** Values and subscripts *)

Lemma integer_value_int (v : value) :
  isinstance_int v = true -> integer_value v = Some (int_value v).
Proof. destruct v as [| [|] | | | | |]; simpl; congruence. Qed.

Lemma integer_value_not_int (v : value) :
  isinstance_int v = false -> integer_value v = None.
Proof. destruct v; simpl; congruence. Qed.

Lemma integer_value_some (v : value) (n : Z) :
  integer_value v = Some n -> isinstance_int v = true /\ int_value v = n.
Proof.
  destruct v as [| [|] | | | | |]; simpl; intros H;
    try discriminate; injection H as <-; auto.
Qed.

Lemma getitem_field (config_dict : value) (key : string) (v : value) :
  getitem config_dict key = Ok v <-> field config_dict key = Some v.
Proof.
  destruct config_dict; simpl; try (split; discriminate).
  destruct (lookup key items); split; congruence.
Qed.

Lemma field_getitem (config_dict : value) (key : string) (v : value) :
  field config_dict key = Some v -> getitem config_dict key = Ok v.
Proof. apply getitem_field. Qed.

Lemma field_none_getitem (config_dict : value) (key : string) :
  field config_dict key = None -> exists e, getitem config_dict key = Raise e.
Proof.
  destruct config_dict; simpl; eauto.
  destruct (lookup key items); [discriminate | eauto].
Qed.

(** ** Each statement of the validator against its rule *)

Lemma check_urls_ok (urls : list value) :
  check_urls urls = Ok tt <-> forallb matching_string urls = true.
Proof.
  induction urls as [|url rest IH]; simpl.
  - tauto.
  - destruct url; try (simpl; split; discriminate).
    cbn [check_urls re_match bind forallb matching_string].
    rewrite rmatch_seed_pattern.
    destruct (http_url s); simpl; [exact IH | split; discriminate].
Qed.

Lemma check_urls_strings (urls : list value) :
  Forall (fun url => isinstance_str url = true) urls ->
  check_urls urls =
    if forallb matching_string urls then Ok tt
    else Raise IncorrectSeedURLError.
Proof.
  induction 1 as [|url rest Hurl _ IH]; simpl.
  - reflexivity.
  - destruct url; try discriminate.
    cbn [check_urls re_match bind forallb matching_string].
    rewrite rmatch_seed_pattern.
    destruct (http_url s); simpl; [exact IH | reflexivity].
Qed.

Section Checks.

Variable N lo hi : Z.

Lemma validate_statements_checks (d : value) :
  validate_statements N lo hi d =
    fold_right (fun r k => check N lo hi r d ;; k) (Ok tt) rules.
Proof.
  unfold validate_statements. simpl.
  destruct (check_seed_urls d) as [[]|]; simpl; trivial.
  destruct (check_num_articles N d) as [[]|]; simpl; trivial.
  destruct (check_headers d) as [[]|]; simpl; trivial.
  destruct (check_encoding d) as [[]|]; simpl; trivial.
  destruct (check_timeout lo hi d) as [[]|]; simpl; trivial.
  destruct (check_verify d) as [[]|]; simpl; trivial.
Qed.

Lemma check_num_articles_value (d v : value) :
  field d "total_articles_to_find_and_parse" = Some v ->
  check_num_articles N d =
    if rule_accepts N lo hi RNumArticles v then Ok tt
    else Raise (rule_error RNumArticles v).
Proof.
  intros Hf. unfold check_num_articles.
  rewrite (field_getitem _ _ _ Hf). simpl.
  destruct (isinstance_int v) eqn:Hi.
  - rewrite (integer_value_int _ Hi). simpl.
    rewrite Z.gtb_ltb. destruct (0 <? int_value v); simpl; trivial.
    rewrite Z.gtb_ltb, Z.leb_antisym.
    destruct (N <? int_value v); reflexivity.
  - rewrite (integer_value_not_int _ Hi). reflexivity.
Qed.

Lemma check_timeout_value (d v : value) :
  field d "timeout" = Some v ->
  check_timeout lo hi d =
    if rule_accepts N lo hi RTimeout v then Ok tt
    else Raise IncorrectTimeoutError.
Proof.
  intros Hf. unfold check_timeout.
  rewrite (field_getitem _ _ _ Hf). simpl.
  destruct (isinstance_int v) eqn:Hi.
  - rewrite (integer_value_int _ Hi). simpl.
    destruct ((lo <? int_value v) && (int_value v <? hi)); reflexivity.
  - rewrite (integer_value_not_int _ Hi). reflexivity.
Qed.

(** Whatever the entries of the seed list are, a statement returns
    normally exactly when its rule accepts the value of its field. *)
Lemma check_ok_iff (r : rule) (d v : value) :
  field d (key_of r) = Some v ->
  (check N lo hi r d = Ok tt <-> rule_accepts N lo hi r v = true).
Proof.
  intros Hf. destruct r; simpl in Hf.
  - simpl. unfold check_seed_urls. rewrite (field_getitem _ _ _ Hf). simpl.
    destruct v; try (split; discriminate). apply check_urls_ok.
  - unfold check. rewrite (check_num_articles_value d v Hf).
    destruct (rule_accepts N lo hi RNumArticles v); split; congruence.
  - simpl. unfold check_headers. rewrite (field_getitem _ _ _ Hf).
    destruct v; simpl; split; congruence.
  - simpl. unfold check_encoding. rewrite (field_getitem _ _ _ Hf).
    destruct v; simpl; split; congruence.
  - unfold check. rewrite (check_timeout_value d v Hf).
    destruct (rule_accepts N lo hi RTimeout v); split; congruence.
  - simpl. unfold check_verify. rewrite (field_getitem _ _ _ Hf).
    destruct v; simpl; split; congruence.
Qed.

(** When the entries of the seed list are strings, a statement that does
    not return normally raises the error kind of its rule. *)
Lemma check_outcome (r : rule) (d v : value) :
  seed_entries_are_strings d ->
  field d (key_of r) = Some v ->
  check N lo hi r d =
    if rule_accepts N lo hi r v then Ok tt else Raise (rule_error r v).
Proof.
  intros Hs Hf. destruct r; simpl in Hf.
  - simpl. unfold check_seed_urls. rewrite (field_getitem _ _ _ Hf). simpl.
    destruct v; try reflexivity. apply check_urls_strings. now apply Hs.
  - apply (check_num_articles_value d v Hf).
  - simpl. unfold check_headers. rewrite (field_getitem _ _ _ Hf).
    destruct v; reflexivity.
  - simpl. unfold check_encoding. rewrite (field_getitem _ _ _ Hf).
    destruct v; reflexivity.
  - apply (check_timeout_value d v Hf).
  - simpl. unfold check_verify. rewrite (field_getitem _ _ _ Hf).
    destruct v; reflexivity.
Qed.

Lemma check_missing (r : rule) (d : value) :
  field d (key_of r) = None -> exists e, check N lo hi r d = Raise e.
Proof.
  intros Hf. destruct (field_none_getitem _ _ Hf) as [e He].
  exists e. destruct r; simpl in *;
    [ unfold check_seed_urls | unfold check_num_articles
    | unfold check_headers | unfold check_encoding
    | unfold check_timeout | unfold check_verify ];
    rewrite He; reflexivity.
Qed.

End Checks.

(** ** The validator against the rules *)

Section ValidatorAgainstRules.

Variable N lo hi : Z.

Lemma checks_ok_iff (d : value) (rs : list rule) :
  fold_right (fun r k => check N lo hi r d ;; k) (Ok tt) rs = Ok tt <->
  forallb (fun r => holds N lo hi r d) rs = true.
Proof.
  induction rs as [|r rs IH]; simpl.
  - tauto.
  - unfold holds at 1. destruct (field d (key_of r)) as [v|] eqn:Hf.
    + pose proof (check_ok_iff N lo hi r d v Hf) as Hr.
      destruct (check N lo hi r d) as [[]|e]; simpl.
      * assert (Hv : rule_accepts N lo hi r v = true) by now apply Hr.
        now rewrite Hv.
      * destruct (rule_accepts N lo hi r v); simpl.
        -- assert (H : @Raise unit e = Ok tt) by now apply Hr.
           discriminate.
        -- split; discriminate.
    + destruct (check_missing N lo hi r d Hf) as [e ->]. simpl.
      split; discriminate.
Qed.

(** Validation returns normally exactly for the documents for which the
    six rules hold. *)
Lemma validate_ok_iff (d : value) :
  validate_statements N lo hi d = Ok tt <-> six_rules_hold N lo hi d = true.
Proof. rewrite validate_statements_checks. apply checks_ok_iff. Qed.

Lemma checks_first_violation (d : value) (rs : list rule) :
  has_fields d -> seed_entries_are_strings d ->
  fold_right (fun r k => check N lo hi r d ;; k) (Ok tt) rs =
    match first_violation N lo hi rs d with
    | None => Ok tt
    | Some e => Raise e
    end.
Proof.
  intros Hfields Hstr. induction rs as [|r rs IH]; simpl.
  - reflexivity.
  - unfold violation. destruct (Hfields r) as [v Hf]. rewrite Hf.
    rewrite (check_outcome N lo hi r d v Hstr Hf).
    destruct (rule_accepts N lo hi r v); simpl; [exact IH | reflexivity].
Qed.

Lemma validate_first_violation (d : value) :
  has_fields d -> seed_entries_are_strings d ->
  validate_statements N lo hi d =
    match first_violation N lo hi rules d with
    | None => Ok tt
    | Some e => Raise e
    end.
Proof.
  intros. rewrite validate_statements_checks.
  now apply checks_first_violation.
Qed.

Lemma first_violation_split (d : value) (before after : list rule)
  (r : rule) (e : exn) :
  (forall r', In r' before -> violation N lo hi r' d = None) ->
  violation N lo hi r d = Some e ->
  first_violation N lo hi (before ++ r :: after)%list d = Some e.
Proof.
  intros Hbefore Hr. induction before as [|b before IH]; simpl.
  - now rewrite Hr.
  - rewrite (Hbefore b) by now left.
    apply IH. intros r' Hin. apply Hbefore. now right.
Qed.

Lemma first_violation_none (d : value) (rs : list rule) :
  (forall r, In r rs -> violation N lo hi r d = None) ->
  first_violation N lo hi rs d = None.
Proof.
  induction rs as [|r rs IH]; simpl; intros H.
  - reflexivity.
  - rewrite (H r) by now left. apply IH. intros r' Hin. apply H. now right.
Qed.

Lemma rule_in_rules (r : rule) :
  exists before after, rules = (before ++ r :: after)%list /\ ~ In r before.
Proof.
  destruct r;
    [ exists [] | exists [RSeedUrls] | exists [RSeedUrls; RNumArticles]
    | exists [RSeedUrls; RNumArticles; RHeaders]
    | exists [RSeedUrls; RNumArticles; RHeaders; REncoding]
    | exists [RSeedUrls; RNumArticles; RHeaders; REncoding; RTimeout] ];
    eexists; (split; [reflexivity | simpl; intuition discriminate]).
Qed.

(** The error kinds a broken rule can give: one of the seven of the
    module, or [ValueError] for a seed field that is not a list. *)
Lemma violation_kind (d : value) (r : rule) (e : exn) :
  has_fields d ->
  violation N lo hi r d = Some e ->
  specific_kind e = true \/
  (e = ValueError /\ r = RSeedUrls /\
   exists v, field d "seed_urls" = Some v /\ isinstance_list v = false).
Proof.
  intros Hfields. unfold violation. destruct (Hfields r) as [v Hf].
  rewrite Hf. destruct (rule_accepts N lo hi r v); [discriminate|].
  intros H. injection H as <-. destruct r; simpl; auto.
  - destruct v; simpl; auto; right; (repeat split; trivial);
      eexists; (split; [exact Hf | reflexivity]).
  - destruct (integer_value v) as [n|]; [destruct (0 <? n)|]; auto.
Qed.

Lemma first_violation_in (d : value) (rs : list rule) (e : exn) :
  first_violation N lo hi rs d = Some e ->
  exists r, In r rs /\ violation N lo hi r d = Some e.
Proof.
  induction rs as [|r rs IH]; simpl; [discriminate|].
  destruct (violation N lo hi r d) as [e'|] eqn:Hr.
  - intros H. injection H as <-. exists r. auto.
  - intros H. destruct (IH H) as [r' [Hin Hv]]. exists r'. auto.
Qed.

End ValidatorAgainstRules.

(** ** C1: the error of the earliest broken rule *)

(** C1, as amended.  Take a configuration document that holds the six
    validated fields and whose seed list, when [seed_urls] is a list, holds
    only strings.  Then: if no rule of section 4.1 is broken, validation
    returns normally; if exactly one rule is broken, validation raises the
    error kind of that rule; if several are broken, it raises the error
    kind of the earliest broken rule in the order seed_urls,
    total_articles_to_find_and_parse, headers, encoding, timeout,
    should_verify_certificate; the error raised is always one of the seven
    kinds of the module, except that a [seed_urls] value that is not a list
    raises the built-in [ValueError]. *)
Theorem validation_reports_earliest_broken_rule
  (N lo hi : Z) (d : value)
  (Hfields : has_fields d) (Hstr : seed_entries_are_strings d) :
  ((forall r, violation N lo hi r d = None) ->
     validate_statements N lo hi d = Ok tt)
  /\ (forall r e,
        violation N lo hi r d = Some e ->
        (forall r', r' <> r -> violation N lo hi r' d = None) ->
        validate_statements N lo hi d = Raise e)
  /\ (forall before r after e,
        rules = (before ++ r :: after)%list ->
        (forall r', In r' before -> violation N lo hi r' d = None) ->
        violation N lo hi r d = Some e ->
        validate_statements N lo hi d = Raise e)
  /\ (forall e,
        validate_statements N lo hi d = Raise e ->
        specific_kind e = true \/
        (e = ValueError /\
         exists v, field d "seed_urls" = Some v /\ isinstance_list v = false))
  /\ (forall v,
        field d "seed_urls" = Some v -> isinstance_list v = false ->
        validate_statements N lo hi d = Raise ValueError).
Proof.
  pose proof (validate_first_violation N lo hi d Hfields Hstr) as Hval.
  assert (Hearliest : forall before r after e,
             rules = (before ++ r :: after)%list ->
             (forall r', In r' before -> violation N lo hi r' d = None) ->
             violation N lo hi r d = Some e ->
             validate_statements N lo hi d = Raise e).
  { intros before r after e Hsplit Hbefore Hr. rewrite Hval, Hsplit.
    now rewrite (first_violation_split N lo hi d before after r e). }
  repeat split.
  - intros Hnone. rewrite Hval.
    now rewrite (first_violation_none N lo hi d rules) by (intros; apply Hnone).
  - intros r e Hr Hothers.
    destruct (rule_in_rules r) as [before [after [Hsplit Hnotin]]].
    apply (Hearliest before r after e Hsplit); trivial.
    intros r' Hin. apply Hothers. intros ->. contradiction.
  - exact Hearliest.
  - intros e He. rewrite Hval in He.
    destruct (first_violation N lo hi rules d) as [e'|] eqn:Hfirst;
      [|discriminate].
    injection He as ->.
    destruct (first_violation_in N lo hi d rules e Hfirst) as [r [_ Hr]].
    destruct (violation_kind N lo hi d r e Hfields Hr)
      as [Hk | [He [_ Hv]]]; auto.
  - intros v Hf Hlist.
    apply (Hearliest [] RSeedUrls
             [RNumArticles; RHeaders; REncoding; RTimeout; RVerify]).
    + reflexivity.
    + intros r' [].
    + unfold violation. simpl key_of. rewrite Hf.
      destruct v; try reflexivity. discriminate.
Qed.

(** A document that breaks two rules: the count is 0 and the timeout is a
    string.  The error is the one of the count, the earlier rule. *)
Lemma validation_reports_earliest_broken_rule_witness :
  validate_statements 150 0 60
    (scenario_config scenario_seeds (VInt 0) (VStr "5"))
  = Raise IncorrectNumberOfArticlesError.
Proof.
  set (d := scenario_config scenario_seeds (VInt 0) (VStr "5")).
  assert (Hfields : has_fields d).
  { intros r. destruct r; eexists; reflexivity. }
  assert (Hstr : seed_entries_are_strings d).
  { intros urls H. injection H as <-. repeat constructor. }
  destruct (validation_reports_earliest_broken_rule 150 0 60 d Hfields Hstr)
    as [_ [_ [Hearliest _]]].
  apply (Hearliest [RSeedUrls] RNumArticles
           [RHeaders; REncoding; RTimeout; RVerify]).
  - reflexivity.
  - intros r' [<- | []]. reflexivity.
  - reflexivity.
Defined.

(** C1, as stated, fails.  Each of these two documents breaks the seed rule
    and no other, and validation raises an error that is none of the seven
    specific kinds: [ValueError] when [seed_urls] is a string instead of a
    list (the explicit [raise] of line 104), [TypeError] when the list
    holds the number 5 (raised inside [re.match], line 106). *)
Lemma seed_rule_errors_outside_the_seven_kinds :
  let not_a_list :=
    scenario_config (VStr "https://example.com/news") (VInt 2) (VInt 5) in
  let not_a_string := scenario_config (VList [VInt 5]) (VInt 2) (VInt 5) in
  map (fun r => holds 150 0 60 r not_a_list) rules
    = [false; true; true; true; true; true]
  /\ validate_statements 150 0 60 not_a_list = Raise ValueError
  /\ specific_kind ValueError = false
  /\ map (fun r => holds 150 0 60 r not_a_string) rules
       = [false; true; true; true; true; true]
  /\ validate_statements 150 0 60 not_a_string = Raise TypeError
  /\ specific_kind TypeError = false.
Proof. repeat split. Qed.

(** ** C2: the accessors *)

(** C2 fails on the code.  The configuration of the concrete scenario is
    valid and [Config] is constructed from it, but every accessor returns
    [None] instead of the value of the document: none of the seven has a
    body. *)
Theorem accessors_return_None :
  let path := "scrapper_config.json" in
  snd (Config_init 150 0 60 (scenario_world scenario) path)
    = Ok (mkConfig path)
  /\ (forall self : Config,
        get_seed_urls self = VNone /\ get_num_articles self = VNone /\
        get_headers self = VNone /\ get_encoding self = VNone /\
        get_timeout self = VNone /\ get_verify_certificate self = VNone /\
        get_headless_mode self = VNone)
  /\ field scenario "seed_urls" = Some scenario_seeds
  /\ get_seed_urls (mkConfig path) <> scenario_seeds
  /\ field scenario "total_articles_to_find_and_parse" = Some (VInt 2)
  /\ get_num_articles (mkConfig path) <> VInt 2.
Proof.
  repeat split; try reflexivity; discriminate.
Qed.

(** ** C3: the seed rule *)

(** C3 fails on the code.  A seed list whose entry is the number 5 does
    not raise [IncorrectSeedURLError]: [re.match] raises [TypeError] on
    the entry and nothing catches it.  Which error a list with a string
    that does not match and an entry that is not a string raises depends
    on which comes first. *)
Theorem non_string_seed_entry_raises_TypeError (N lo hi : Z) :
  validate_statements N lo hi
    (scenario_config (VList [VInt 5]) (VInt 2) (VInt 5)) = Raise TypeError
  /\ validate_statements N lo hi
       (scenario_config (VList [VStr "https://example.com/news"; VNone])
          (VInt 2) (VInt 5)) = Raise TypeError
  /\ validate_statements N lo hi
       (scenario_config (VList [VInt 5; VStr "ftp://example.com"])
          (VInt 2) (VInt 5)) = Raise TypeError
  /\ validate_statements N lo hi
       (scenario_config (VList [VStr "ftp://example.com"; VInt 5])
          (VInt 2) (VInt 5)) = Raise IncorrectSeedURLError.
Proof. repeat split. Qed.

(** What does hold of the seed rule: a value that is not a list raises
    [ValueError]; a list of strings passes when every string begins with
    [http://] or [https://] and raises [IncorrectSeedURLError]
    otherwise. *)
Lemma seed_rule_on_strings (d v : value) :
  field d "seed_urls" = Some v ->
  (isinstance_list v = false -> check_seed_urls d = Raise ValueError)
  /\ (forall urls,
        v = VList urls ->
        Forall (fun url => isinstance_str url = true) urls ->
        check_seed_urls d =
          if forallb matching_string urls then Ok tt
          else Raise IncorrectSeedURLError).
Proof.
  intros Hf. unfold check_seed_urls. rewrite (field_getitem _ _ _ Hf).
  split.
  - destruct v; try reflexivity. discriminate.
  - intros urls -> Hstr. now apply check_urls_strings.
Qed.

(** ** C4: the number of articles *)

(** C4.  For the value [v] of [total_articles_to_find_and_parse]: if [v] is
    not a positive integer the rule raises [IncorrectNumberOfArticlesError];
    if it is a positive integer greater than the upper limit the rule
    raises [NumberOfArticlesOutOfRangeError]; every positive integer up to
    the limit passes.  When the seed rule has passed, an error of this
    rule is the error of the validation, and when this rule passes the
    validation goes on with the rules that follow. *)
Theorem num_articles_rule (N : Z) (d v : value)
  (Hv : getitem d "total_articles_to_find_and_parse" = Ok v) :
  ((forall n, integer_value v = Some n -> n <= 0) ->
     check_num_articles N d = Raise IncorrectNumberOfArticlesError)
  /\ (forall n, integer_value v = Some n -> 0 < n -> N < n ->
        check_num_articles N d = Raise NumberOfArticlesOutOfRangeError)
  /\ (forall n, integer_value v = Some n -> 0 < n <= N ->
        check_num_articles N d = Ok tt)
  /\ (forall lo hi, check_seed_urls d = Ok tt ->
        validate_statements N lo hi d =
          (check_num_articles N d ;; check_headers d ;; check_encoding d ;;
           check_timeout lo hi d ;; check_verify d)).
Proof.
  apply getitem_field in Hv.
  pose proof (check_num_articles_value N 0 0 d v Hv) as Hc.
  simpl in Hc. repeat split.
  - intros Hn. rewrite Hc. destruct (integer_value v) as [n|]; trivial.
    specialize (Hn n eq_refl).
    destruct (Z.ltb_spec 0 n); [lia | reflexivity].
  - intros n Hn Hpos Hbig. rewrite Hc, Hn.
    destruct (Z.ltb_spec 0 n); [|lia].
    destruct (Z.leb_spec n N); [lia | reflexivity].
  - intros n Hn [Hpos Hle]. rewrite Hc, Hn.
    destruct (Z.ltb_spec 0 n); [|lia].
    destruct (Z.leb_spec n N); [reflexivity | lia].
  - intros lo hi Hseed. unfold validate_statements. now rewrite Hseed.
Qed.

Lemma num_articles_rule_witness :
  check_num_articles 150
    (scenario_config scenario_seeds (VInt 151) (VInt 5))
  = Raise NumberOfArticlesOutOfRangeError
  /\ check_num_articles 150
       (scenario_config scenario_seeds (VInt 150) (VInt 5)) = Ok tt.
Proof.
  split.
  - apply (proj1 (proj2 (num_articles_rule 150
             (scenario_config scenario_seeds (VInt 151) (VInt 5))
             (VInt 151) eq_refl)) 151); [reflexivity | lia | lia].
  - apply (proj1 (proj2 (proj2 (num_articles_rule 150
             (scenario_config scenario_seeds (VInt 150) (VInt 5))
             (VInt 150) eq_refl))) 150); [reflexivity | lia].
Defined.

(** ** C5: the timeout *)

Lemma validate_scenario (N : Z) (total timeout : value) :
  validate_statements N 0 60 (scenario_config scenario_seeds total timeout) =
    (check_num_articles N (scenario_config scenario_seeds total timeout) ;;
     check_timeout 0 60 (scenario_config scenario_seeds total timeout)).
Proof.
  unfold validate_statements.
  change (check_seed_urls (scenario_config scenario_seeds total timeout))
    with (@Ok unit tt).
  cbn [bind].
  destruct (check_num_articles N _) as [[]|]; cbn [bind]; trivial.
  change (check_headers (scenario_config scenario_seeds total timeout))
    with (@Ok unit tt).
  change (check_encoding (scenario_config scenario_seeds total timeout))
    with (@Ok unit tt).
  change (check_verify (scenario_config scenario_seeds total timeout))
    with (@Ok unit tt).
  cbn [bind].
  destruct (check_timeout 0 60 _) as [[]|]; reflexivity.
Qed.

Lemma check_num_articles_small (N n : Z) (seeds timeout : value) :
  0 < n <= N ->
  check_num_articles N (scenario_config seeds (VInt n) timeout) = Ok tt.
Proof.
  intros [Hpos Hle]. unfold check_num_articles. simpl.
  rewrite !Z.gtb_ltb.
  destruct (Z.ltb_spec 0 n); [|lia].
  destruct (Z.ltb_spec N n); [lia | reflexivity].
Qed.

(** C5.  The value [v] of [timeout] passes the timeout rule if and only if
    it is an integer [n] with lower limit < [n] < upper limit, both bounds
    excluded; otherwise the rule raises [IncorrectTimeoutError], and, the
    earlier rules having passed, so does the validation.  With the limits
    0 and 60 the scenario configuration with timeout 0 raises
    [IncorrectTimeoutError] and with timeout 5 it is accepted ([N], the
    limit on the number of articles, being at least the 2 of the
    scenario). *)
Theorem timeout_rule (N lo hi : Z) (d v : value)
  (HN : 2 <= N) (Hv : getitem d "timeout" = Ok v) :
  (check_timeout lo hi d = Ok tt <->
     exists n, integer_value v = Some n /\ lo < n < hi)
  /\ ((~ exists n, integer_value v = Some n /\ lo < n < hi) ->
        check_timeout lo hi d = Raise IncorrectTimeoutError)
  /\ (check_seed_urls d = Ok tt -> check_num_articles N d = Ok tt ->
      check_headers d = Ok tt -> check_encoding d = Ok tt ->
      validate_statements N lo hi d =
        (check_timeout lo hi d ;; check_verify d))
  /\ validate_statements N 0 60
       (scenario_config scenario_seeds (VInt 2) (VInt 0))
     = Raise IncorrectTimeoutError
  /\ validate_statements N 0 60
       (scenario_config scenario_seeds (VInt 2) (VInt 5)) = Ok tt.
Proof.
  apply getitem_field in Hv.
  pose proof (check_timeout_value 0 lo hi d v Hv) as Hc. simpl in Hc.
  assert (Hin : (exists n, integer_value v = Some n /\ lo < n < hi) <->
                match integer_value v with
                | Some n => (lo <? n) && (n <? hi)
                | None => false
                end = true).
  { destruct (integer_value v) as [n|].
    - rewrite andb_true_iff, !Z.ltb_lt. split.
      + intros [n' [H Hr]]. injection H as <-. exact Hr.
      + intros Hr. now exists n.
    - split; [intros [n [H _]]|]; discriminate. }
  repeat split.
  - intros Hok. apply Hin. rewrite Hc in Hok.
    destruct (match integer_value v with Some _ => _ | None => _ end);
      [reflexivity | discriminate].
  - intros Hex. apply Hin in Hex. now rewrite Hc, Hex.
  - intros Hnot. rewrite Hc.
    destruct (match integer_value v with Some _ => _ | None => _ end) eqn:E;
      [|reflexivity].
    exfalso. apply Hnot, Hin. reflexivity.
  - intros H1 H2 H3 H4. unfold validate_statements.
    now rewrite H1, H2, H3, H4.
  - rewrite validate_scenario, check_num_articles_small by lia. reflexivity.
  - rewrite validate_scenario, check_num_articles_small by lia. reflexivity.
Qed.

Lemma timeout_rule_witness :
  check_timeout 0 60 (scenario_config scenario_seeds (VInt 2) (VInt 60))
    = Raise IncorrectTimeoutError
  /\ validate_statements 150 0 60
       (scenario_config scenario_seeds (VInt 2) (VInt 5)) = Ok tt.
Proof.
  pose proof (timeout_rule 150 0 60
                (scenario_config scenario_seeds (VInt 2) (VInt 60))
                (VInt 60) ltac:(lia) eq_refl) as [_ [Hout [_ [_ Hfive]]]].
  split; [|exact Hfive].
  apply Hout. intros [n [Hn Hr]]. injection Hn as <-. lia.
Defined.

(** ** C7: Crawler.find_articles *)

(** C7 fails on the code.  [find_articles] has no body: for the scenario
    (one seed, a cap of two articles) it sends no request, returns [None]
    and leaves the crawler as it was, and [__init__] gave the crawler no
    attribute at all, so no URL is discovered where the claim asks for
    two. *)
Theorem find_articles_discovers_nothing (config : Config) (self : instance) :
  Crawler_init config = []
  /\ (forall name, getattr (Crawler_init config) name = None)
  /\ find_articles self = ([], self, VNone)
  /\ get_search_urls self = VNone
  /\ (forall Soup (page : Soup), _extract_url Soup self page = VNone)
  /\ VNone <> VList [VStr "https://example.com/a/1";
                     VStr "https://example.com/a/2"].
Proof. repeat split; discriminate. Qed.

(** ** C8: HTMLParser.parse *)

(** C8 fails on the code.  [parse] has no body: whatever the article page
    and whether it can be fetched, the call sends no request and returns
    [None], which is neither the boolean [False] nor an article;
    [make_request] has no body either. *)
Theorem parse_returns_None
  (full_url : string) (article_id : Z) (config : Config) (self : instance) :
  HTMLParser_init full_url article_id config = []
  /\ parse self = ([], self, VNone)
  /\ VNone <> VBool false
  /\ make_request full_url config = ([], VNone).
Proof. repeat split; discriminate. Qed.

(** ** C9: HTMLParser.unify_date_format *)

(** C9 fails on the code.  [unify_date_format] has no body: it returns
    [None] for every argument, so a date already in canonical form is not
    returned unchanged, and no date string is given a canonical value. *)
Theorem unify_date_format_returns_None (self : instance) :
  (forall date_str, unify_date_format self date_str = VNone)
  /\ unify_date_format self (VStr "2024-05-17T10:30:00")
       <> VStr "2024-05-17T10:30:00"
  /\ unify_date_format self (VStr "2024-05-17 10:30") = VNone.
Proof. repeat split; discriminate. Qed.

(** ** C10: booleans among the integers *)

(** C10.  The limit on the number of articles being at least 1: a document
    whose [total_articles_to_find_and_parse] is the boolean [true] passes
    the rule of the number of articles; a document whose [timeout] is a
    boolean whose numeric value lies strictly between the timeout limits
    passes the timeout rule; and the scenario configuration with either
    field, or both, set to [true] is validated without error under the
    timeout limits 0 and 60. *)
Theorem booleans_pass_integer_rules (N lo hi : Z) (HN : 1 <= N) :
  (forall d,
     getitem d "total_articles_to_find_and_parse" = Ok (VBool true) ->
     check_num_articles N d = Ok tt)
  /\ (forall d b,
        getitem d "timeout" = Ok (VBool b) -> lo < Z.b2z b < hi ->
        check_timeout lo hi d = Ok tt)
  /\ validate_statements N 0 60
       (scenario_config scenario_seeds (VBool true) (VInt 5)) = Ok tt
  /\ validate_statements N 0 60
       (scenario_config scenario_seeds (VInt 1) (VBool true)) = Ok tt
  /\ validate_statements N 0 60
       (scenario_config scenario_seeds (VBool true) (VBool true)) = Ok tt.
Proof.
  assert (Htotal : forall d,
            getitem d "total_articles_to_find_and_parse" = Ok (VBool true) ->
            check_num_articles N d = Ok tt).
  { intros d Hd. unfold check_num_articles. rewrite Hd. simpl.
    rewrite Z.gtb_ltb. destruct (Z.ltb_spec N 1); [lia | reflexivity]. }
  repeat split.
  - exact Htotal.
  - intros d b Hd Hb. unfold check_timeout. rewrite Hd.
    destruct b; simpl in *.
    + destruct (Z.ltb_spec lo 1); [|lia].
      destruct (Z.ltb_spec 1 hi); [reflexivity | lia].
    + destruct (Z.ltb_spec lo 0); [|lia].
      destruct (Z.ltb_spec 0 hi); [reflexivity | lia].
  - rewrite validate_scenario, Htotal; reflexivity.
  - rewrite validate_scenario, check_num_articles_small by lia. reflexivity.
  - rewrite validate_scenario, Htotal; reflexivity.
Qed.

Lemma booleans_pass_integer_rules_witness :
  validate_statements 150 0 60
    (scenario_config scenario_seeds (VBool true) (VBool true)) = Ok tt
  /\ check_timeout 0 60
       (scenario_config scenario_seeds (VInt 2) (VBool true)) = Ok tt.
Proof.
  pose proof (booleans_pass_integer_rules 150 0 60 ltac:(lia))
    as [_ [Htimeout [_ [_ Hboth]]]].
  split; [exact Hboth|].
  apply (Htimeout _ true); [reflexivity | simpl; lia].
Defined.

(** * Further properties of the validator *)

(** ** The seed pattern *)

(** X1.  [re.match] with the pattern of line 106 accepts a string exactly
    when the string begins with [http://] or with [https://]: the
    optional group [(www.)?] never changes the outcome, nothing has to
    follow the two slashes, and a string that is accepted stays accepted
    whatever is appended to it. *)
Theorem seed_pattern_accepts_scheme_prefix (s : string) :
  (re_match seed_pattern (VStr s) = Ok true <->
     (exists rest, s = ("http://" ++ rest)%string) \/
     (exists rest, s = ("https://" ++ rest)%string))
  /\ (re_match seed_pattern (VStr s) = Ok true ->
      forall t, re_match seed_pattern (VStr (s ++ t)) = Ok true).
Proof.
  assert (Hiff : forall u,
            re_match seed_pattern (VStr u) = Ok true <->
            (exists rest, u = ("http://" ++ rest)%string) \/
            (exists rest, u = ("https://" ++ rest)%string)).
  { intros u. unfold re_match. rewrite rmatch_seed_pattern.
    unfold http_url. rewrite <- !starts_with_app, <- orb_true_iff.
    split; [intros H; now injection H | intros ->; reflexivity]. }
  split; [apply Hiff|].
  intros H t. apply Hiff. apply Hiff in H.
  destruct H as [[rest ->] | [rest ->]]; [left | right];
    exists (rest ++ t)%string; reflexivity.
Qed.

(** ** The loop over the seed list *)

Lemma check_urls_app (urls1 urls2 : list value) :
  check_urls (urls1 ++ urls2) = (check_urls urls1 ;; check_urls urls2).
Proof.
  induction urls1 as [|url urls1 IH]; cbn [app check_urls].
  - reflexivity.
  - destruct (re_match seed_pattern url) as [[|]|e]; cbn [bind negb];
      trivial.
Qed.

Lemma matching_string_re_match (url : value) :
  matching_string url = true -> re_match seed_pattern url = Ok true.
Proof.
  destruct url; try discriminate. cbn [matching_string re_match].
  rewrite rmatch_seed_pattern. now intros ->.
Qed.

Lemma check_urls_matching (urls : list value) :
  forallb matching_string urls = true -> check_urls urls = Ok tt.
Proof. apply check_urls_ok. Qed.

(** X2.  The loop of lines 105-107 stops at the first entry of the list
    that is not a string beginning with [http://] or [https://]: whatever
    follows it, the loop raises [IncorrectSeedURLError] when that entry is
    a string and [TypeError] when it is not. *)
Theorem seed_loop_stops_at_first_offender
  (good rest : list value) (bad : value)
  (Hgood : forallb matching_string good = true)
  (Hbad : matching_string bad = false) :
  check_urls (good ++ bad :: rest) =
    if isinstance_str bad then Raise IncorrectSeedURLError
    else Raise TypeError.
Proof.
  rewrite check_urls_app, (check_urls_matching good Hgood).
  cbn [bind check_urls].
  destruct bad; try reflexivity.
  cbn [re_match matching_string isinstance_str bind] in *.
  rewrite rmatch_seed_pattern, Hbad. reflexivity.
Qed.

Lemma seed_loop_stops_at_first_offender_witness :
  check_urls [VStr "https://example.com/news"; VStr "example.com"; VInt 5]
    = Raise IncorrectSeedURLError
  /\ check_urls [VStr "https://example.com/news"; VInt 5; VStr "example.com"]
       = Raise TypeError.
Proof.
  split.
  - apply (seed_loop_stops_at_first_offender
             [VStr "https://example.com/news"] [VInt 5] (VStr "example.com"));
      reflexivity.
  - apply (seed_loop_stops_at_first_offender
             [VStr "https://example.com/news"] [VStr "example.com"] (VInt 5));
      reflexivity.
Defined.

Lemma forallb_Permutation (A : Type) (f : A -> bool) (l l' : list A) :
  Permutation l l' -> forallb f l = forallb f l'.
Proof.
  induction 1 as [| x l l' _ IH | x y l | l l' l'' _ IH1 _ IH2]; simpl.
  - reflexivity.
  - now rewrite IH.
  - now rewrite !andb_assoc, (andb_comm (f y)).
  - congruence.
Qed.

(** X3.  For a seed list that holds only strings the outcome of the loop
    does not depend on the order of the entries (nor on an entry being
    repeated elsewhere in the list): two lists that are permutations of
    one another are both accepted or both rejected with
    [IncorrectSeedURLError]. *)
Theorem seed_loop_ignores_order_of_strings (urls urls' : list value)
  (Hperm : Permutation urls urls')
  (Hstr : Forall (fun url => isinstance_str url = true) urls) :
  check_urls urls = check_urls urls'.
Proof.
  rewrite (check_urls_strings urls Hstr).
  rewrite (check_urls_strings urls') by exact (Permutation_Forall Hperm Hstr).
  now rewrite (forallb_Permutation _ matching_string urls urls' Hperm).
Qed.

Lemma seed_loop_ignores_order_of_strings_witness :
  check_urls [VStr "ftp://a"; VStr "http://b"]
    = check_urls [VStr "http://b"; VStr "ftp://a"].
Proof.
  apply seed_loop_ignores_order_of_strings.
  - apply perm_swap.
  - repeat constructor.
Defined.

(** ** What the validator reads *)

(** X4.  The outcome of the validation depends on the six subscripts of
    lines 103-120 and on nothing else: two documents that give the same
    result for each of them (whatever their other keys, [headless_mode]
    among them, and whatever the order of their keys) are validated
    alike. *)
Theorem validation_reads_six_fields (N lo hi : Z) (d d' : value)
  (Hsame : forall r, getitem d (key_of r) = getitem d' (key_of r)) :
  validate_statements N lo hi d = validate_statements N lo hi d'.
Proof.
  unfold validate_statements, check_seed_urls, check_num_articles,
    check_headers, check_encoding, check_timeout, check_verify.
  pose proof (Hsame RSeedUrls) as H1. pose proof (Hsame RNumArticles) as H2.
  pose proof (Hsame RHeaders) as H3. pose proof (Hsame REncoding) as H4.
  pose proof (Hsame RTimeout) as H5. pose proof (Hsame RVerify) as H6.
  cbn [key_of] in *. rewrite H1, H2, H3, H4, H5, H6. reflexivity.
Qed.

Lemma validation_reads_six_fields_witness :
  validate_statements 150 0 60
    (VDict [("timeout", VInt 5); ("encoding", VStr "utf-8");
            ("should_verify_certificate", VBool true);
            ("headers", VDict []); ("comment", VNone);
            ("total_articles_to_find_and_parse", VInt 2);
            ("seed_urls", scenario_seeds)])
  = validate_statements 150 0 60 scenario.
Proof.
  apply validation_reads_six_fields. intros r. destruct r; reflexivity.
Defined.

(** ** Where each error of the validation comes from *)

Section ErrorProvenance.

Variable N lo hi : Z.

Lemma checks_raise_iff (d : value) (e : exn) (rs : list rule) :
  fold_right (fun r k => check N lo hi r d ;; k) (Ok tt) rs = Raise e <->
  exists before r after,
    rs = (before ++ r :: after)%list /\
    (forall r', In r' before -> check N lo hi r' d = Ok tt) /\
    check N lo hi r d = Raise e.
Proof.
  induction rs as [|r rs IH]; simpl.
  - split; [discriminate|].
    intros [before [r [after [H _]]]]. destruct before; discriminate.
  - split.
    + destruct (check N lo hi r d) as [[]|e'] eqn:Hr; simpl.
      * intros H. apply IH in H.
        destruct H as [before [r0 [after [-> [Hbefore Hr0]]]]].
        exists (r :: before), r0, after. repeat split; trivial.
        intros r' [<- | Hin]; auto.
      * intros H. injection H as ->. exists [], r, rs.
        repeat split; trivial. intros r' [].
    + intros [before [r0 [after [Hsplit [Hbefore Hr0]]]]].
      destruct before as [|b before]; simpl in Hsplit;
        injection Hsplit as -> ->.
      * now rewrite Hr0.
      * rewrite (Hbefore b) by now left. simpl. apply IH.
        exists before, r0, after. repeat split; trivial.
        intros r' Hin. apply Hbefore. now right.
Qed.

Lemma validate_raise_iff (d : value) (e : exn) :
  validate_statements N lo hi d = Raise e <->
  exists before r after,
    rules = (before ++ r :: after)%list /\
    (forall r', In r' before -> check N lo hi r' d = Ok tt) /\
    check N lo hi r d = Raise e.
Proof. rewrite validate_statements_checks. apply checks_raise_iff. Qed.

Lemma check_ok_holds (r : rule) (d : value) :
  check N lo hi r d = Ok tt <-> holds N lo hi r d = true.
Proof.
  unfold holds. destruct (field d (key_of r)) as [v|] eqn:Hf.
  - now apply check_ok_iff.
  - destruct (check_missing N lo hi r d Hf) as [e ->].
    split; discriminate.
Qed.

Lemma getitem_KeyError (d : value) (key : string) :
  getitem d key = Raise KeyError <->
  isinstance_dict d = true /\ field d key = None.
Proof.
  destruct d; simpl; try (split; [discriminate | intros [H _]; discriminate]).
  destruct (lookup key items); split; try discriminate; auto.
  intros [_ H]. discriminate.
Qed.

Lemma getitem_TypeError (d : value) (key : string) :
  getitem d key = Raise TypeError <-> isinstance_dict d = false.
Proof.
  destruct d; simpl; try (split; reflexivity).
  destruct (lookup key items); split; discriminate.
Qed.

Lemma getitem_raises (d : value) (key : string) (e : exn) :
  getitem d key = Raise e -> e = KeyError \/ e = TypeError.
Proof.
  destruct d; simpl; try (intros H; injection H as <-; auto).
  destruct (lookup key items); [discriminate|].
  intros H; injection H as <-; auto.
Qed.

Lemma check_urls_TypeError (urls : list value) :
  check_urls urls = Raise TypeError <->
  exists good bad rest,
    urls = (good ++ bad :: rest)%list /\
    forallb matching_string good = true /\ isinstance_str bad = false.
Proof.
  induction urls as [|url urls IH].
  - split; [discriminate|].
    intros [good [bad [rest [H _]]]]. destruct good; discriminate.
  - split.
    + destruct (isinstance_str url) eqn:Hs.
      * destruct url; try discriminate.
        cbn [check_urls re_match bind]. rewrite rmatch_seed_pattern.
        destruct (http_url s) eqn:Hm; cbn [negb]; [|discriminate].
        intros H. apply IH in H.
        destruct H as [good [bad [rest [-> [Hgood Hbad]]]]].
        exists (VStr s :: good), bad, rest. repeat split; trivial.
        simpl. now rewrite Hm.
      * intros _. exists [], url, urls. repeat split; trivial.
    + intros [good [bad [rest [Hsplit [Hgood Hbad]]]]].
      rewrite Hsplit, check_urls_app, (check_urls_matching good Hgood).
      cbn [bind check_urls]. destruct bad; try reflexivity. discriminate.
Qed.

Lemma check_urls_raises (urls : list value) (e : exn) :
  check_urls urls = Raise e -> e = TypeError \/ e = IncorrectSeedURLError.
Proof.
  induction urls as [|url urls IH]; [discriminate|].
  cbn [check_urls].
  destruct (re_match seed_pattern url) as [[|]|e'] eqn:Hm; cbn [bind negb].
  - exact IH.
  - intros H; injection H as <-; auto.
  - intros H; injection H as <-. left.
    destruct url; try (simpl in Hm; congruence).
Qed.

End ErrorProvenance.

Lemma check_raise_cases (N lo hi : Z) (r : rule) (d : value) (e : exn) :
  check N lo hi r d = Raise e ->
  getitem d (key_of r) = Raise e \/
  exists v,
    field d (key_of r) = Some v /\
    ((r = RSeedUrls /\ exists urls, v = VList urls /\ check_urls urls = Raise e)
     \/ specific_kind e = true
     \/ (r = RSeedUrls /\ isinstance_list v = false /\ e = ValueError)).
Proof.
  destruct r; cbn [check key_of];
    [ unfold check_seed_urls | unfold check_num_articles
    | unfold check_headers | unfold check_encoding
    | unfold check_timeout | unfold check_verify ];
    (destruct (getitem d _) as [v|e'] eqn:Hg; cbn [bind];
     [ apply getitem_field in Hg; intros H; right; exists v;
       split; [exact Hg|]
     | intros H; left; now injection H as -> ]).
  - destruct v;
      try (injection H as <-; right; right; repeat split; reflexivity).
    left. split; [reflexivity|]. now exists items.
  - right; left.
    destruct (negb _); [now injection H as <-|].
    destruct (_ >? _); [now injection H as <-|discriminate].
  - right; left. destruct (negb _); [now injection H as <-|discriminate].
  - right; left. destruct (negb _); [now injection H as <-|discriminate].
  - right; left. destruct (negb _); [now injection H as <-|discriminate].
  - right; left. destruct (negb _); [now injection H as <-|discriminate].
Qed.

(** X5.  Validation raises [KeyError] exactly when the document is a JSON
    object that lacks the field of some rule while every earlier rule, in
    the order of the statements, holds; a missing field is therefore
    reported only after the fields before it have been found valid. *)
Theorem KeyError_means_missing_field (N lo hi : Z) (d : value) :
  validate_statements N lo hi d = Raise KeyError <->
  isinstance_dict d = true /\
  exists before r after,
    rules = (before ++ r :: after)%list /\
    (forall r', In r' before -> holds N lo hi r' d = true) /\
    field d (key_of r) = None.
Proof.
  rewrite validate_raise_iff. split.
  - intros [before [r [after [Hsplit [Hbefore Hr]]]]].
    assert (Hk : isinstance_dict d = true /\ field d (key_of r) = None).
    { destruct (check_raise_cases N lo hi r d KeyError Hr)
        as [Hg | [v [_ [[_ [urls [_ Hu]]] | [Hs | [_ [_ He]]]]]]].
      - now apply getitem_KeyError.
      - destruct (check_urls_raises urls KeyError Hu); discriminate.
      - discriminate.
      - discriminate. }
    destruct Hk as [Hd Hf]. split; [exact Hd|].
    exists before, r, after. repeat split; trivial.
    intros r' Hin. now apply check_ok_holds, Hbefore.
  - intros [Hd [before [r [after [Hsplit [Hbefore Hf]]]]]].
    exists before, r, after. repeat split; trivial.
    + intros r' Hin. now apply check_ok_holds, Hbefore.
    + assert (Hg : getitem d (key_of r) = Raise KeyError)
        by now apply getitem_KeyError.
      destruct r; cbn [check key_of] in *;
        [ unfold check_seed_urls | unfold check_num_articles
        | unfold check_headers | unfold check_encoding
        | unfold check_timeout | unfold check_verify ];
        now rewrite Hg.
Qed.

(** X6.  Validation raises [TypeError] in exactly two cases: the document
    is not a JSON object (the first subscript fails), or [seed_urls] is a
    list in which an entry that is not a string comes before every string
    that the pattern rejects. *)
Theorem TypeError_means_not_object_or_non_string_seed
  (N lo hi : Z) (d : value) :
  validate_statements N lo hi d = Raise TypeError <->
  isinstance_dict d = false \/
  exists good bad rest,
    field d "seed_urls" = Some (VList (good ++ bad :: rest)) /\
    forallb matching_string good = true /\ isinstance_str bad = false.
Proof.
  rewrite validate_raise_iff. split.
  - intros [before [r [after [Hsplit [Hbefore Hr]]]]].
    destruct (check_raise_cases N lo hi r d TypeError Hr)
      as [Hg | [v [Hf [[-> [urls [-> Hu]]] | [Hs | [_ [_ He]]]]]]].
    + left. now apply getitem_TypeError in Hg.
    + right. apply check_urls_TypeError in Hu.
      destruct Hu as [good [bad [rest [-> [Hgood Hbad]]]]].
      exists good, bad, rest. auto.
    + discriminate.
    + discriminate.
  - intros H. exists [], RSeedUrls,
      [RNumArticles; RHeaders; REncoding; RTimeout; RVerify].
    repeat split; [intros r' [] |].
    cbn [check]. unfold check_seed_urls.
    destruct H as [Hd | [good [bad [rest [Hf [Hgood Hbad]]]]]].
    + rewrite (proj2 (getitem_TypeError d "seed_urls") Hd). reflexivity.
    + rewrite (field_getitem _ _ _ Hf). cbn [bind].
      apply check_urls_TypeError. exists good, bad, rest. auto.
Qed.

(** X7.  Validation raises [ValueError] exactly when the document has a
    [seed_urls] field whose value is not a list; no other field and no
    later statement can produce it. *)
Theorem ValueError_means_seed_urls_not_a_list (N lo hi : Z) (d : value) :
  validate_statements N lo hi d = Raise ValueError <->
  exists v, field d "seed_urls" = Some v /\ isinstance_list v = false.
Proof.
  rewrite validate_raise_iff. split.
  - intros [before [r [after [Hsplit [Hbefore Hr]]]]].
    destruct (check_raise_cases N lo hi r d ValueError Hr)
      as [Hg | [v [Hf [[_ [urls [_ Hu]]] | [Hs | [-> [Hl _]]]]]]].
    + destruct (getitem_raises _ _ _ Hg); discriminate.
    + destruct (check_urls_raises urls ValueError Hu); discriminate.
    + discriminate.
    + exists v. auto.
  - intros [v [Hf Hl]]. exists [], RSeedUrls,
      [RNumArticles; RHeaders; REncoding; RTimeout; RVerify].
    repeat split; [intros r' [] |].
    cbn [check]. unfold check_seed_urls.
    rewrite (field_getitem _ _ _ Hf). cbn [bind].
    destruct v; try reflexivity. discriminate.
Qed.

(** ** The limits *)

Lemma rule_accepts_looser (N lo hi N' lo' hi' : Z) (r : rule) (v : value) :
  N <= N' -> lo' <= lo -> hi <= hi' ->
  rule_accepts N lo hi r v = true -> rule_accepts N' lo' hi' r v = true.
Proof.
  intros HN Hlo Hhi. destruct r; simpl; trivial.
  - destruct (integer_value v) as [n|]; trivial.
    rewrite !andb_true_iff, !Z.ltb_lt, !Z.leb_le. lia.
  - destruct (integer_value v) as [n|]; trivial.
    rewrite !andb_true_iff, !Z.ltb_lt. lia.
Qed.

(** X8.  A document that passes validation still passes when the limits
    are loosened: a larger upper limit on the number of articles, a
    smaller lower limit or a larger upper limit on the timeout never turn
    an accepted configuration into a rejected one. *)
Theorem looser_limits_accept_more
  (N lo hi N' lo' hi' : Z) (d : value)
  (HN : N <= N') (Hlo : lo' <= lo) (Hhi : hi <= hi')
  (Hok : validate_statements N lo hi d = Ok tt) :
  validate_statements N' lo' hi' d = Ok tt.
Proof.
  apply validate_ok_iff. apply validate_ok_iff in Hok.
  unfold six_rules_hold in *. rewrite forallb_forall in *.
  intros r Hin. specialize (Hok r Hin). unfold holds in *.
  destruct (field d (key_of r)) as [v|]; [|discriminate].
  now apply (rule_accepts_looser N lo hi).
Qed.

Lemma looser_limits_accept_more_witness :
  validate_statements 1000 (-1) 120 scenario = Ok tt.
Proof.
  apply (looser_limits_accept_more 150 0 60); try lia. reflexivity.
Defined.

(** X9.  Some configuration document passes validation if and only if the
    upper limit on the number of articles is at least 1 and an integer
    lies strictly between the two timeout limits; with any other
    constants every document is rejected. *)
Theorem limits_admit_a_configuration (N lo hi : Z) :
  (exists d, validate_statements N lo hi d = Ok tt) <->
  1 <= N /\ lo + 1 < hi.
Proof.
  split.
  - intros [d Hok]. apply validate_ok_iff in Hok.
    unfold six_rules_hold in Hok. rewrite forallb_forall in Hok.
    assert (Hn : holds N lo hi RNumArticles d = true)
      by (apply Hok; simpl; auto).
    assert (Ht : holds N lo hi RTimeout d = true)
      by (apply Hok; simpl; auto 10).
    unfold holds in Hn, Ht.
    destruct (field d (key_of RNumArticles)) as [vn|]; [|discriminate].
    destruct (field d (key_of RTimeout)) as [vt|]; [|discriminate].
    simpl in Hn, Ht.
    destruct (integer_value vn) as [n|]; [|discriminate].
    destruct (integer_value vt) as [t|]; [|discriminate].
    rename Hn into H1, Ht into H2.
    rewrite andb_true_iff, Z.ltb_lt, Z.leb_le in H1.
    rewrite andb_true_iff, !Z.ltb_lt in H2. lia.
  - intros [HN Hlim].
    exists (scenario_config scenario_seeds (VInt 1) (VInt (lo + 1))).
    apply validate_ok_iff. unfold six_rules_hold, rules, holds. simpl.
    destruct (Z.leb_spec 1 N); [|lia].
    destruct (Z.ltb_spec lo (lo + 1)); [|lia].
    destruct (Z.ltb_spec (lo + 1) hi); [reflexivity | lia].
Qed.

(** ** Config._extract_config_content *)

Section Extraction.

Variable DTO : Type.
Variable ConfigDTO :
  value -> value -> value -> value -> value -> value -> value -> res DTO.

Lemma extract_document (w : world) (self : Config) (d : value) :
  w (path_to_config self) = Some (Document d) ->
  snd (_extract_config_content DTO ConfigDTO w self) =
    (seed_urls <- getitem d "seed_urls" ;;
     total <- getitem d "total_articles_to_find_and_parse" ;;
     headers <- getitem d "headers" ;;
     encoding <- getitem d "encoding" ;;
     timeout <- getitem d "timeout" ;;
     verify <- getitem d "should_verify_certificate" ;;
     headless <- getitem d "headless_mode" ;;
     ConfigDTO seed_urls total headers encoding timeout verify headless).
Proof.
  intros Hfile. unfold _extract_config_content, load_json.
  rewrite Hfile. reflexivity.
Qed.

Lemma holds_field (N lo hi : Z) (r : rule) (d : value) :
  holds N lo hi r d = true ->
  exists v, field d (key_of r) = Some v /\ rule_accepts N lo hi r v = true.
Proof.
  unfold holds. destruct (field d (key_of r)) as [v|]; [|discriminate].
  intros H. now exists v.
Qed.

End Extraction.

(** X10.  [_extract_config_content] checks nothing but the presence of the
    seven keys.  On a document that is not a JSON object it raises
    [TypeError]; on an object that lacks one of the seven keys it raises
    [KeyError] and the constructor of [ConfigDTO] is not called; on an
    object that has the seven keys it calls the constructor with their
    seven values, in the order of the parameters and unchanged, whether
    or not the values are valid. *)
Theorem extract_needs_only_the_seven_keys
  (DTO : Type)
  (ConfigDTO :
     value -> value -> value -> value -> value -> value -> value -> res DTO)
  (w : world) (self : Config) (d : value)
  (Hfile : w (path_to_config self) = Some (Document d)) :
  (isinstance_dict d = false ->
     snd (_extract_config_content DTO ConfigDTO w self) = Raise TypeError)
  /\ (isinstance_dict d = true ->
      (exists key, In key dto_keys /\ field d key = None) ->
      snd (_extract_config_content DTO ConfigDTO w self) = Raise KeyError)
  /\ (forall seed total headers encoding timeout verify headless,
        field d "seed_urls" = Some seed ->
        field d "total_articles_to_find_and_parse" = Some total ->
        field d "headers" = Some headers ->
        field d "encoding" = Some encoding ->
        field d "timeout" = Some timeout ->
        field d "should_verify_certificate" = Some verify ->
        field d "headless_mode" = Some headless ->
        snd (_extract_config_content DTO ConfigDTO w self) =
          ConfigDTO seed total headers encoding timeout verify headless).
Proof.
  rewrite (extract_document DTO ConfigDTO w self d Hfile). repeat split.
  - intros Hd. now rewrite (proj2 (getitem_TypeError d "seed_urls") Hd).
  - intros Hd [key [Hin Hnone]].
    assert (Hg : forall k, getitem d k =
                   match field d k with
                   | Some v => Ok v
                   | None => Raise KeyError
                   end).
    { intros k. destruct d; try discriminate. simpl.
      destruct (lookup k items); reflexivity. }
    rewrite !Hg.
    destruct (field d "seed_urls") eqn:H1; trivial.
    destruct (field d "total_articles_to_find_and_parse") eqn:H2; trivial.
    destruct (field d "headers") eqn:H3; trivial.
    destruct (field d "encoding") eqn:H4; trivial.
    destruct (field d "timeout") eqn:H5; trivial.
    destruct (field d "should_verify_certificate") eqn:H6; trivial.
    destruct (field d "headless_mode") eqn:H7; trivial.
    exfalso. simpl in Hin.
    destruct Hin as [<- | [<- | [<- | [<- | [<- | [<- | [<- | []]]]]]]];
      congruence.
  - intros seed total headers encoding timeout verify headless
      H1 H2 H3 H4 H5 H6 H7.
    rewrite (field_getitem _ _ _ H1), (field_getitem _ _ _ H2),
      (field_getitem _ _ _ H3), (field_getitem _ _ _ H4),
      (field_getitem _ _ _ H5), (field_getitem _ _ _ H6),
      (field_getitem _ _ _ H7).
    reflexivity.
Qed.

Lemma extract_needs_only_the_seven_keys_witness :
  snd (_extract_config_content (list value)
         (fun a b c d e f g => Ok [a; b; c; d; e; f; g])
         (scenario_world
            (VDict [("seed_urls", VInt 0); ("headers", VNone)]))
         (mkConfig "scrapper_config.json"))
  = Raise KeyError.
Proof.
  apply (extract_needs_only_the_seven_keys (list value)
           (fun a b c d e f g => Ok [a; b; c; d; e; f; g])
           (scenario_world
              (VDict [("seed_urls", VInt 0); ("headers", VNone)]))
           (mkConfig "scrapper_config.json")
           (VDict [("seed_urls", VInt 0); ("headers", VNone)]) eq_refl).
  - reflexivity.
  - exists "timeout". split; [simpl; auto 10 | reflexivity].
Defined.

(** X11.  When [Config(path)] has been constructed and the file has not
    changed, [_extract_config_content] finds the six validated fields,
    each satisfying its rule, and passes them unchanged to the
    constructor of [ConfigDTO]; the only key it can still miss is
    [headless_mode], which the validation never reads, and then it raises
    [KeyError]. *)
Theorem extract_after_construction
  (N lo hi : Z) (DTO : Type)
  (ConfigDTO :
     value -> value -> value -> value -> value -> value -> value -> res DTO)
  (w : world) (path : string) (self : Config)
  (Hinit : snd (Config_init N lo hi w path) = Ok self) :
  exists d seed total headers encoding timeout verify,
    w path = Some (Document d)
    /\ field d "seed_urls" = Some seed
    /\ rule_accepts N lo hi RSeedUrls seed = true
    /\ field d "total_articles_to_find_and_parse" = Some total
    /\ rule_accepts N lo hi RNumArticles total = true
    /\ field d "headers" = Some headers
    /\ rule_accepts N lo hi RHeaders headers = true
    /\ field d "encoding" = Some encoding
    /\ rule_accepts N lo hi REncoding encoding = true
    /\ field d "timeout" = Some timeout
    /\ rule_accepts N lo hi RTimeout timeout = true
    /\ field d "should_verify_certificate" = Some verify
    /\ rule_accepts N lo hi RVerify verify = true
    /\ snd (_extract_config_content DTO ConfigDTO w self) =
         match field d "headless_mode" with
         | Some headless =>
             ConfigDTO seed total headers encoding timeout verify headless
         | None => Raise KeyError
         end.
Proof.
  unfold Config_init, _validate_config_content, load_json in Hinit.
  simpl in Hinit.
  destruct (w path) as [[|d]|] eqn:Hfile; try discriminate.
  simpl in Hinit.
  destruct (validate_statements N lo hi d) as [[]|e] eqn:Hval;
    [|discriminate].
  simpl in Hinit. injection Hinit as <-.
  apply validate_ok_iff in Hval. unfold six_rules_hold in Hval.
  rewrite forallb_forall in Hval.
  destruct (holds_field N lo hi RSeedUrls d) as [seed [F1 A1]];
    [apply Hval; simpl; auto 10|].
  destruct (holds_field N lo hi RNumArticles d) as [total [F2 A2]];
    [apply Hval; simpl; auto 10|].
  destruct (holds_field N lo hi RHeaders d) as [headers [F3 A3]];
    [apply Hval; simpl; auto 10|].
  destruct (holds_field N lo hi REncoding d) as [encoding [F4 A4]];
    [apply Hval; simpl; auto 10|].
  destruct (holds_field N lo hi RTimeout d) as [timeout [F5 A5]];
    [apply Hval; simpl; auto 10|].
  destruct (holds_field N lo hi RVerify d) as [verify [F6 A6]];
    [apply Hval; simpl; auto 10|].
  cbn [key_of] in *.
  exists d, seed, total, headers, encoding, timeout, verify.
  repeat (split; [assumption|]).
  rewrite (extract_document DTO ConfigDTO w (mkConfig path) d Hfile).
  rewrite (field_getitem _ _ _ F1), (field_getitem _ _ _ F2),
    (field_getitem _ _ _ F3), (field_getitem _ _ _ F4),
    (field_getitem _ _ _ F5), (field_getitem _ _ _ F6).
  cbn [bind].
  destruct (field d "headless_mode") as [headless|] eqn:F7.
  - now rewrite (field_getitem _ _ _ F7).
  - assert (Hd : isinstance_dict d = true)
      by (destruct d; try discriminate; reflexivity).
    now rewrite (proj2 (getitem_KeyError d "headless_mode") (conj Hd F7)).
Qed.

Lemma extract_after_construction_witness :
  exists d seed total headers encoding timeout verify,
    scenario_world
      (VDict [("seed_urls", scenario_seeds);
              ("total_articles_to_find_and_parse", VInt 2);
              ("headers", VDict []); ("encoding", VStr "utf-8");
              ("timeout", VInt 5);
              ("should_verify_certificate", VBool true)])
      "scrapper_config.json" = Some (Document d)
    /\ field d "seed_urls" = Some seed
    /\ rule_accepts 150 0 60 RSeedUrls seed = true
    /\ field d "total_articles_to_find_and_parse" = Some total
    /\ rule_accepts 150 0 60 RNumArticles total = true
    /\ field d "headers" = Some headers
    /\ rule_accepts 150 0 60 RHeaders headers = true
    /\ field d "encoding" = Some encoding
    /\ rule_accepts 150 0 60 REncoding encoding = true
    /\ field d "timeout" = Some timeout
    /\ rule_accepts 150 0 60 RTimeout timeout = true
    /\ field d "should_verify_certificate" = Some verify
    /\ rule_accepts 150 0 60 RVerify verify = true
    /\ snd (_extract_config_content (list value)
              (fun a b c d e f g => Ok [a; b; c; d; e; f; g])
              (scenario_world
                 (VDict [("seed_urls", scenario_seeds);
                         ("total_articles_to_find_and_parse", VInt 2);
                         ("headers", VDict []); ("encoding", VStr "utf-8");
                         ("timeout", VInt 5);
                         ("should_verify_certificate", VBool true)]))
              (mkConfig "scrapper_config.json")) =
         match field d "headless_mode" with
         | Some headless =>
             Ok [seed; total; headers; encoding; timeout; verify; headless]
         | None => Raise KeyError
         end.
Proof.
  apply (extract_after_construction 150 0 60 (list value)
           (fun a b c d e f g => Ok [a; b; c; d; e; f; g])).
  reflexivity.
Defined.

(** ** What an error tells about the document *)

Lemma check_outcome_after_seeds (N lo hi : Z) (r : rule) (d v : value) :
  r <> RSeedUrls ->
  field d (key_of r) = Some v ->
  check N lo hi r d =
    if rule_accepts N lo hi r v then Ok tt else Raise (rule_error r v).
Proof.
  intros Hr Hf. destruct r; try contradiction; simpl in Hf.
  - apply (check_num_articles_value N lo hi d v Hf).
  - simpl. unfold check_headers. rewrite (field_getitem _ _ _ Hf).
    destruct v; reflexivity.
  - simpl. unfold check_encoding. rewrite (field_getitem _ _ _ Hf).
    destruct v; reflexivity.
  - apply (check_timeout_value N lo hi d v Hf).
  - simpl. unfold check_verify. rewrite (field_getitem _ _ _ Hf).
    destruct v; reflexivity.
Qed.

(** X12.  Whenever validation fails with one of the seven error kinds of
    the module, whatever the document is, the error is the one section
    4.1 attaches to some rule whose field is present and breaks it, and
    every rule before that one holds: the error names the earliest
    broken rule. *)
Theorem specific_error_names_earliest_broken_rule
  (N lo hi : Z) (d : value) (e : exn)
  (Hraise : validate_statements N lo hi d = Raise e)
  (Hkind : specific_kind e = true) :
  exists before r after v,
    rules = (before ++ r :: after)%list
    /\ (forall r', In r' before -> holds N lo hi r' d = true)
    /\ field d (key_of r) = Some v
    /\ rule_accepts N lo hi r v = false
    /\ e = rule_error r v.
Proof.
  apply validate_raise_iff in Hraise.
  destruct Hraise as [before [r [after [Hsplit [Hbefore Hr]]]]].
  assert (Hv : exists v, field d (key_of r) = Some v).
  { destruct (check_raise_cases N lo hi r d e Hr) as [Hg | [v [Hf _]]].
    - destruct (getitem_raises _ _ _ Hg); subst e; discriminate.
    - now exists v. }
  destruct Hv as [v Hf].
  exists before, r, after, v.
  assert (Hacc : rule_accepts N lo hi r v = false).
  { destruct (rule_accepts N lo hi r v) eqn:Ha; trivial.
    apply (check_ok_iff N lo hi r d v Hf) in Ha. congruence. }
  repeat split; trivial.
  - intros r' Hin. now apply check_ok_holds, Hbefore.
  - destruct r;
      try (rewrite (check_outcome_after_seeds N lo hi _ d v) in Hr
             by (discriminate || exact Hf);
           rewrite Hacc in Hr; now injection Hr as <-).
    cbn [check key_of] in *. unfold check_seed_urls in Hr.
    rewrite (field_getitem _ _ _ Hf) in Hr. cbn [bind] in Hr.
    destruct v; try (now injection Hr as <-).
    destruct (check_urls_raises _ _ Hr); subst e;
      [discriminate | reflexivity].
Qed.

Lemma specific_error_names_earliest_broken_rule_witness :
  exists before r after v,
    rules = (before ++ r :: after)%list
    /\ (forall r', In r' before ->
          holds 150 0 60 r'
            (scenario_config scenario_seeds
               (VInt 2) (VInt 60)) = true)
    /\ field (scenario_config scenario_seeds
                (VInt 2) (VInt 60)) (key_of r) = Some v
    /\ rule_accepts 150 0 60 r v = false
    /\ IncorrectTimeoutError = rule_error r v.
Proof.
  apply (specific_error_names_earliest_broken_rule 150 0 60
           (scenario_config scenario_seeds
              (VInt 2) (VInt 60))).
  - reflexivity.
  - reflexivity.
Defined.

(** ** The messages of the errors *)

Lemma validate_raises_kinds (N lo hi : Z) (d : value) (e : exn) :
  validate_statements N lo hi d = Raise e ->
  specific_kind e = true \/ e = ValueError \/ e = TypeError \/ e = KeyError.
Proof.
  intros H. apply validate_raise_iff in H.
  destruct H as [before [r [after [_ [_ Hr]]]]].
  destruct (check_raise_cases N lo hi r d e Hr)
    as [Hg | [v [_ [[_ [urls [_ Hu]]] | [Hs | [_ [_ He]]]]]]]; auto.
  - destruct (getitem_raises _ _ _ Hg); auto.
  - destruct (check_urls_raises _ _ Hu); subst e; auto.
Qed.

Lemma message_injective (e e' : exn) (m : string) :
  message e = Some m -> message e' = Some m -> e' = e.
Proof.
  destruct e; simpl; intros H; try discriminate H; injection H as <-;
    destruct e'; simpl; intros H'; try discriminate H'; reflexivity.
Qed.

(** X13.  Every error the validation raises through a [raise] statement of
    the module (every error but the [KeyError] and [TypeError] of the
    interpreter) carries a message, and no two of these errors carry the
    same message: the text alone tells which rule failed. *)
Theorem message_identifies_the_error
  (N lo hi : Z) (d : value) (e : exn)
  (Hraise : validate_statements N lo hi d = Raise e)
  (Hkey : e <> KeyError) (Htype : e <> TypeError) :
  exists m, message e = Some m /\ forall e', message e' = Some m -> e' = e.
Proof.
  assert (Hm : exists m, message e = Some m).
  { destruct (validate_raises_kinds N lo hi d e Hraise)
      as [Hs | [-> | [-> | ->]]]; try contradiction.
    - destruct e; try discriminate; simpl; eauto.
    - simpl; eauto. }
  destruct Hm as [m Hm]. exists m. split; [exact Hm|].
  intros e' He'. exact (message_injective e e' m Hm He').
Qed.

Lemma message_identifies_the_error_witness :
  exists m,
    message IncorrectTimeoutError = Some m /\
    forall e', message e' = Some m -> e' = IncorrectTimeoutError.
Proof.
  apply (message_identifies_the_error 150 0 60
           (scenario_config scenario_seeds (VInt 2) (VInt 0)));
    [reflexivity | discriminate | discriminate].
Defined.

(** ** The empty seed list *)

(** X14.  The seed rule asks nothing of the length of the list: a document
    whose [seed_urls] is the empty list and whose five other rules hold
    passes validation, so a [Config] without any seed can be
    constructed. *)
Theorem empty_seed_list_is_accepted (N lo hi : Z) (d : value)
  (Hseeds : field d "seed_urls" = Some (VList []))
  (Hothers : forall r, r <> RSeedUrls -> holds N lo hi r d = true) :
  validate_statements N lo hi d = Ok tt.
Proof.
  apply validate_ok_iff. unfold six_rules_hold. rewrite forallb_forall.
  intros r _. destruct r; try (apply Hothers; discriminate).
  unfold holds. cbn [key_of]. rewrite Hseeds. reflexivity.
Qed.

Lemma empty_seed_list_is_accepted_witness :
  validate_statements 150 0 60 (scenario_config (VList []) (VInt 2) (VInt 5))
  = Ok tt.
Proof.
  apply empty_seed_list_is_accepted.
  - reflexivity.
  - intros r Hr. destruct r; reflexivity.
Defined.

(** ** C6: what construction guarantees *)


Example scenario_is_fully_valid : fully_valid 150 0 60 scenario = true.
Proof. reflexivity. Qed.



